(** * RockflowContext and its HLO builtin registry

    Shallow embedding of
    - include/matxscript/runtime/rockflow.h  (the [RockflowContext] class), and
    - src/ir/hlo_builtin_rockflow.cc        (the [rockflow_context] builtin entries).

    Data model:
    - [int64_t] and [int] are [Z]; their widths are recorded in [CType];
    - [double] is the primitive binary64 [float];
    - [std::string] and [string_view] are [string];
    - [FTList<T>] is [list T].
    A virtual class is a record of methods (its vtable) over the object state
    [Self] of a concrete subclass; every method of [RockflowContext] is
    [const], so a call returns the object it was given. *)

From Stdlib Require Import ZArith String Ascii List Bool Floats Lia.
Import ListNotations.
Open Scope string_scope.

(** ** C++ types of the interface *)

Inductive CType :=
| CInt64                 (* int64_t *)
| CInt                   (* int *)
| CDouble                (* double *)
| CStdString             (* const std::string& *)
| CStringView            (* string_view, const string_view& *)
| CFTList (t : CType).   (* FTList<t> *)

Definition int64 := Z.
Definition int := Z.
Definition double := float.
Definition string_view := string.
Definition FTList (A : Type) := list A.

(** Width in bits of the integer types. *)
Definition int_bits (t : CType) : option nat :=
  match t with
  | CInt64 => Some 64%nat
  | CInt => Some 32%nat
  | _ => None
  end.

(** Two's-complement reduction into a [w]-bit signed integer: the implicit
    conversion of a wider integer argument to a [w]-bit parameter. *)
Definition wrap_signed (w : Z) (z : Z) : Z :=
  let m := (2 ^ w)%Z in
  let r := (z mod m)%Z in
  if (2 ^ (w - 1) <=? r)%Z then (r - m)%Z else r.

(** [int64_t] argument passed to an [int] parameter. *)
Definition to_int (z : int64) : int := wrap_signed 32 z.

(** ** rockflow.h *)
Module Runtime.

(** The constructor argument [const Any&]; the constructor ignores it. *)
Inductive Any :=
| AnyNone
| AnyInt (z : Z)
| AnyStr (s : string).

(** The vtable of [class RockflowContext]. *)
Record RockflowContextVT (Self : Type) := {
  GetInt : Self -> string -> int64 -> int64;
  GetDouble : Self -> string -> double -> double;
  GetString : Self -> string -> string_view -> string_view;
  GetIntList : Self -> string -> FTList int64;
  GetDoubleList : Self -> string -> FTList double;
  GetStringList : Self -> string -> FTList string_view;
  SetInt : Self -> string -> int -> int
}.

Arguments GetInt {Self} _ _ _ _.
Arguments GetDouble {Self} _ _ _ _.
Arguments GetString {Self} _ _ _ _.
Arguments GetIntList {Self} _ _ _.
Arguments GetDoubleList {Self} _ _ _.
Arguments GetStringList {Self} _ _ _.
Arguments SetInt {Self} _ _ _ _.

(** [RockflowContext] itself has no data members. *)
Record RockflowContext := mkRockflowContext {}.

(** [RockflowContext(const Any&) {}] *)
Definition RockflowContext_ctor (_ : Any) : RockflowContext := mkRockflowContext.

(** The method bodies of [RockflowContext]; a subclass that does not
    override a method inherits the body given here, whatever its [Self]. *)
Definition RockflowContext_base (Self : Type) : RockflowContextVT Self := {|
  GetInt := fun _ _ _ => 0%Z;
  GetDouble := fun _ _ _ => 0.0%float;
  GetString := fun _ _ _ => EmptyString;
  GetIntList := fun _ _ => [];
  GetDoubleList := fun _ _ => [];
  GetStringList := fun _ _ => [];
  SetInt := fun _ _ _ => 0%Z
|}.

(** The declared signatures of the methods of [RockflowContext], in
    declaration order. *)
Record MethodSig := {
  sig_name : string;
  sig_params : list CType;
  sig_ret : CType
}.

Definition RockflowContext_sigs : list MethodSig := [
  {| sig_name := "GetInt"; sig_params := [CStdString; CInt64]; sig_ret := CInt64 |};
  {| sig_name := "GetDouble"; sig_params := [CStdString; CDouble]; sig_ret := CDouble |};
  {| sig_name := "GetString"; sig_params := [CStdString; CStringView]; sig_ret := CStringView |};
  {| sig_name := "GetIntList"; sig_params := [CStdString]; sig_ret := CFTList CInt64 |};
  {| sig_name := "GetDoubleList"; sig_params := [CStdString]; sig_ret := CFTList CDouble |};
  {| sig_name := "GetStringList"; sig_params := [CStdString]; sig_ret := CFTList CStringView |};
  {| sig_name := "SetInt"; sig_params := [CStdString; CInt]; sig_ret := CInt |}
].

Definition lookup_method (name : string) : option MethodSig :=
  find (fun m => String.eqb (sig_name m) name) RockflowContext_sigs.

(** A call of one method, with its arguments. *)
Inductive Call :=
| CallGetInt (attr : string) (default_value : int64)
| CallGetDouble (attr : string) (default_value : double)
| CallGetString (attr : string) (default_value : string_view)
| CallGetIntList (attr : string)
| CallGetDoubleList (attr : string)
| CallGetStringList (attr : string)
| CallSetInt (attr : string) (value : int).

Inductive Result :=
| RInt64 (v : int64)
| RDouble (v : double)
| RStringView (v : string_view)
| RIntList (v : FTList int64)
| RDoubleList (v : FTList double)
| RStringList (v : FTList string_view)
| RInt (v : int).

(** One virtual call on an object; the methods are [const]. *)
Definition invoke {Self} (vt : RockflowContextVT Self) (self : Self) (c : Call)
  : Result * Self :=
  match c with
  | CallGetInt a d => (RInt64 (GetInt vt self a d), self)
  | CallGetDouble a d => (RDouble (GetDouble vt self a d), self)
  | CallGetString a d => (RStringView (GetString vt self a d), self)
  | CallGetIntList a => (RIntList (GetIntList vt self a), self)
  | CallGetDoubleList a => (RDoubleList (GetDoubleList vt self a), self)
  | CallGetStringList a => (RStringList (GetStringList vt self a), self)
  | CallSetInt a v => (RInt (SetInt vt self a v), self)
  end.

(** A sequence of calls, threading the object. *)
Fixpoint run {Self} (vt : RockflowContextVT Self) (self : Self) (cs : list Call)
  : list Result * Self :=
  match cs with
  | [] => ([], self)
  | c :: cs' =>
      let (r, self') := invoke vt self c in
      let (rs, self'') := run vt self' cs' in
      (r :: rs, self'')
  end.

End Runtime.

(** ** hlo_builtin_rockflow.cc *)
Module Builtin.
Import Runtime.

(** One [add_argument(name, type_key, description)] descriptor. *)
Record HloArgument := {
  arg_name : string;
  arg_type_key : string;
  arg_description : string
}.

(** A registry entry built by [MATXSCRIPT_IR_DEFINE_HLO_METHOD(Prefix, OpName,
    MethodName)]: [op_num_inputs] is [-1] until [set_num_inputs] is called,
    and [add_argument] appends a descriptor. *)
Record HloMethod := {
  op_prefix : string;
  op_name : string;
  op_method : string;
  op_num_inputs : Z;
  op_arguments : list HloArgument
}.

Definition DEFINE_HLO_METHOD (prefix name method : string) : HloMethod := {|
  op_prefix := prefix; op_name := name; op_method := method;
  op_num_inputs := (-1)%Z; op_arguments := []
|}.

Definition set_num_inputs (n : Z) (e : HloMethod) : HloMethod := {|
  op_prefix := op_prefix e; op_name := op_name e; op_method := op_method e;
  op_num_inputs := n; op_arguments := op_arguments e
|}.

Definition add_argument (name type_key description : string) (e : HloMethod)
  : HloMethod := {|
  op_prefix := op_prefix e; op_name := op_name e; op_method := op_method e;
  op_num_inputs := op_num_inputs e;
  op_arguments := op_arguments e ++ [{| arg_name := name; arg_type_key := type_key;
                                       arg_description := description |}]
|}.

(** The builder chain [e.f(...).g(...)]. *)
Notation "e |> f" := (f e) (at level 40, left associativity, only parsing).

Definition get_int :=
  DEFINE_HLO_METHOD "rockflow_context" "get_int" "GetInt"
  |> set_num_inputs 3
  |> add_argument "self" "RockflowContext" ""
  |> add_argument "attr_name" "bytes" ""
  |> add_argument "default_value" "int" "".

Definition get_double :=
  DEFINE_HLO_METHOD "rockflow_context" "get_double" "GetDouble"
  |> set_num_inputs 3
  |> add_argument "self" "RockflowContext" ""
  |> add_argument "attr_name" "bytes" ""
  |> add_argument "default_value" "float" "".

Definition get_string :=
  DEFINE_HLO_METHOD "rockflow_context" "get_string" "GetString"
  |> set_num_inputs 3
  |> add_argument "self" "RockflowContext" ""
  |> add_argument "attr_name" "bytes" ""
  |> add_argument "default_value" "bytes" "".

Definition get_int_list :=
  DEFINE_HLO_METHOD "rockflow_context" "get_int_list" "GetIntList"
  |> set_num_inputs 2
  |> add_argument "self" "RockflowContext" ""
  |> add_argument "attr_name" "bytes" "".

Definition get_double_list :=
  DEFINE_HLO_METHOD "rockflow_context" "get_double_list" "GetDoubleList"
  |> set_num_inputs 2
  |> add_argument "self" "RockflowContext" ""
  |> add_argument "attr_name" "bytes" "".

Definition get_string_list :=
  DEFINE_HLO_METHOD "rockflow_context" "get_string_list" "GetStringList"
  |> set_num_inputs 2
  |> add_argument "self" "RockflowContext" ""
  |> add_argument "attr_name" "bytes" "".

Definition get_item_count :=
  DEFINE_HLO_METHOD "rockflow_context" "get_item_count" "GetItemCount"
  |> set_num_inputs 1
  |> add_argument "self" "RockflowContext" "".

Definition get_item_attr_assigner :=
  DEFINE_HLO_METHOD "rockflow_context" "get_item_attr_assigner" "GetItemAttrAssigner"
  |> set_num_inputs 2
  |> add_argument "self" "RockflowContext" ""
  |> add_argument "index" "int" "".

(** Every entry the file registers, in file order. *)
Definition rockflow_registry : list HloMethod :=
  [get_int; get_double; get_string; get_int_list; get_double_list;
   get_string_list; get_item_count; get_item_attr_assigner].

(** Number of entries bound to the C++ method [method]. *)
Definition count_entries (method : string) : nat :=
  length (filter (fun e => String.eqb (op_method e) method) rockflow_registry).

(** Script type keys against the C++ parameter types: the script [int] is
    [int64_t], [float] is [double], [bytes] a string or string view. *)
Definition type_key_matches (key : string) (t : CType) : bool :=
  match t with
  | CInt64 => String.eqb key "int"
  | CDouble => String.eqb key "float"
  | CStdString | CStringView => String.eqb key "bytes"
  | _ => false
  end.

Fixpoint forall2b {A B} (f : A -> B -> bool) (xs : list A) (ys : list B) : bool :=
  match xs, ys with
  | [], [] => true
  | x :: xs', y :: ys' => f x y && forall2b f xs' ys'
  | _, _ => false
  end.

(** An entry agrees with the method it binds to: the method exists, the
    arity counts [self] plus the parameters, the first argument is the
    [RockflowContext] receiver and the others match the parameters in order. *)
Definition entry_matches_interface (e : HloMethod) : bool :=
  match lookup_method (op_method e) with
  | None => false
  | Some m =>
      Z.eqb (op_num_inputs e) (Z.of_nat (S (length (sig_params m))))
      && match op_arguments e with
         | self :: rest =>
             String.eqb (arg_type_key self) "RockflowContext"
             && forall2b type_key_matches (map arg_type_key rest) (sig_params m)
         | [] => false
         end
  end.

(** Script values at a builtin call site. *)
Inductive Value :=
| VContext
| VBytes (s : string)
| VInt (z : Z)
| VFloat (f : float)
| VIntList (l : list Z)
| VFloatList (l : list float)
| VBytesList (l : list string).

(** The native call [self.Method(args...)] the compiler emits for a bound
    method: [None] when [RockflowContext] declares no such method (the
    emitted call does not compile) or the arguments do not fit it. *)
Definition call_method {Self} (vt : RockflowContextVT Self) (self : Self)
    (method : string) (args : list Value) : option Value :=
  match lookup_method method with
  | None => None
  | Some _ =>
      match args with
      | [VBytes a; VInt d] =>
          if String.eqb method "GetInt" then Some (VInt (GetInt vt self a d))
          else if String.eqb method "SetInt" then Some (VInt (SetInt vt self a (to_int d)))
          else None
      | [VBytes a; VFloat d] =>
          if String.eqb method "GetDouble" then Some (VFloat (GetDouble vt self a d)) else None
      | [VBytes a; VBytes d] =>
          if String.eqb method "GetString" then Some (VBytes (GetString vt self a d)) else None
      | [VBytes a] =>
          if String.eqb method "GetIntList" then Some (VIntList (GetIntList vt self a))
          else if String.eqb method "GetDoubleList" then Some (VFloatList (GetDoubleList vt self a))
          else if String.eqb method "GetStringList" then Some (VBytesList (GetStringList vt self a))
          else None
      | _ => None
      end
  end.

Definition find_entry (prefix name : string) : option HloMethod :=
  find (fun e => String.eqb (op_prefix e) prefix && String.eqb (op_name e) name)
    rockflow_registry.

(** A builtin call [prefix.name(self, args...)]: resolve the entry, check
    the arity, and call the bound method on the receiver. *)
Definition call_builtin {Self} (vt : RockflowContextVT Self) (self : Self)
    (prefix name : string) (args : list Value) : option Value :=
  match find_entry prefix name with
  | None => None
  | Some e =>
      if Z.eqb (Z.of_nat (length args)) (op_num_inputs e) then
        match args with
        | VContext :: rest => call_method vt self (op_method e) rest
        | _ => None
        end
      else None
  end.

End Builtin.

(** * Properties *)

Import Runtime Builtin.
Local Open Scope Z_scope.

Definition fresh_context : RockflowContext := RockflowContext_ctor AnyNone.

(** The operations of [RockflowContext]. *)
Inductive Op := OGetInt | OGetDouble | OGetString | OGetIntList
              | OGetDoubleList | OGetStringList | OSetInt.

(** Which operation a call is. *)
Definition call_op (c : Call) : Op :=
  match c with
  | CallGetInt _ _ => OGetInt
  | CallGetDouble _ _ => OGetDouble
  | CallGetString _ _ => OGetString
  | CallGetIntList _ => OGetIntList
  | CallGetDoubleList _ => OGetDoubleList
  | CallGetStringList _ => OGetStringList
  | CallSetInt _ _ => OSetInt
  end.

(** The constant each inherited method body returns. *)
Definition base_result (o : Op) : Result :=
  match o with
  | OGetInt => RInt64 0%Z
  | OGetDouble => RDouble 0.0%float
  | OGetString => RStringView EmptyString
  | OGetIntList => RIntList []
  | OGetDoubleList => RDoubleList []
  | OGetStringList => RStringList []
  | OSetInt => RInt 0%Z
  end.

(** The registry key [(prefix, name)] of an entry. *)
Definition entry_key (e : HloMethod) : string * string := (op_prefix e, op_name e).

(** Runtime type keys an argument may declare. *)
Definition runtime_type_keys : list string := ["RockflowContext"; "bytes"; "int"; "float"].

(** Snake-case form of a C++ method name: [GetIntList] is [get_int_list]. *)
Definition is_upper (c : Ascii.ascii) : bool :=
  (Nat.leb 65 (Ascii.nat_of_ascii c) && Nat.leb (Ascii.nat_of_ascii c) 90)%bool.

Definition to_lower (c : Ascii.ascii) : Ascii.ascii :=
  if is_upper c then Ascii.ascii_of_nat (Ascii.nat_of_ascii c + 32) else c.

Fixpoint snake_case_aux (first : bool) (s : string) : string :=
  match s with
  | EmptyString => EmptyString
  | String c s' =>
      if is_upper c then
        if first then String (to_lower c) (snake_case_aux false s')
        else String "_"%char (String (to_lower c) (snake_case_aux false s'))
      else String c (snake_case_aux false s')
  end.

Definition snake_case (s : string) : string := snake_case_aux true s.

(** The runtime type key of a C++ type, where it has one. *)
Definition type_key_of (t : CType) : option string :=
  match t with
  | CInt64 => Some "int"
  | CDouble => Some "float"
  | CStdString | CStringView => Some "bytes"
  | _ => None
  end.

(** Membership in, and duplicate freedom of, a concrete list of strings. *)
Ltac solve_in := cbn; repeat (first [left; reflexivity | right]).
Ltac solve_nodup :=
  repeat (apply NoDup_cons;
          [cbn; intros Hin; repeat destruct Hin as [Hin | Hin]; try discriminate; contradiction |]);
  apply NoDup_nil.

(** The inherited bodies return the same result on every object. *)
Lemma invoke_base {Self} (self : Self) (c : Call) :
  invoke (RockflowContext_base Self) self c = (base_result (call_op c), self).
Proof. destruct c; reflexivity. Qed.

(** ** C1 *)

(** C1 (counterexample): on the default implementation, [GetInt("score", 7)]
    returns 0, not the supplied default 7. *)
Lemma C1_default_not_returned :
  GetInt (RockflowContext_base RockflowContext) fresh_context "score" 7 <> 7%Z.
Proof. discriminate. Qed.

(** C1 (amended): the default implementation ignores the supplied default:
    for every name and default, [GetInt], [GetDouble] and [GetString] return
    0, 0.0 and the empty view, so the result equals the default exactly when
    the default is that zero value. *)
Theorem C1_default_ignored {Self} (self : Self) (name : string)
    (di : int64) (dd : double) (ds : string_view) :
  GetInt (RockflowContext_base Self) self name di = 0%Z
  /\ GetDouble (RockflowContext_base Self) self name dd = 0.0%float
  /\ GetString (RockflowContext_base Self) self name ds = EmptyString
  /\ (GetInt (RockflowContext_base Self) self name di = di <-> di = 0%Z)
  /\ (GetDouble (RockflowContext_base Self) self name dd = dd <-> dd = 0.0%float)
  /\ (GetString (RockflowContext_base Self) self name ds = ds <-> ds = EmptyString).
Proof.
  cbn. repeat split; intros H; symmetry; exact H.
Qed.

(** ** C2 *)

(** C2: the six read entries agree with the methods they bind, but
    [get_item_count] and [get_item_attr_assigner] bind [GetItemCount] and
    [GetItemAttrAssigner], which [RockflowContext] does not declare. *)
Theorem C2_entries_vs_interface :
  map entry_matches_interface rockflow_registry
    = [true; true; true; true; true; true; false; false]
  /\ lookup_method "GetItemCount" = None
  /\ lookup_method "GetItemAttrAssigner" = None.
Proof. vm_compute. repeat split. Qed.

(** ** C3 *)

(** C3: [RockflowContext] declares no [GetItemCount]; the builtin
    [rockflow_context.get_item_count] on a fresh context has no method to
    call, whereas [get_int] on the same context yields a value. *)
Theorem C3_no_GetItemCount :
  lookup_method "GetItemCount" = None
  /\ call_builtin (RockflowContext_base RockflowContext) fresh_context
       "rockflow_context" "get_item_count" [VContext] = None
  /\ call_builtin (RockflowContext_base RockflowContext) fresh_context
       "rockflow_context" "get_int" [VContext; VBytes "score"; VInt 7] = Some (VInt 0).
Proof. vm_compute. repeat split. Qed.

(** ** C4 *)

(** C4: the six read methods of [RockflowContext] have one registry entry
    each, but no entry binds the write method [SetInt], so it is not exposed
    to the compiler. *)
Theorem C4_SetInt_has_no_entry :
  count_entries "SetInt" = 0%nat
  /\ map (fun m => count_entries (sig_name m)) RockflowContext_sigs
     = [1; 1; 1; 1; 1; 1; 0]%nat.
Proof. vm_compute. split; reflexivity. Qed.

(** ** C5 *)

(** C5: every inherited method body returns the zero value or the empty
    list, for every object, name and argument. *)
Theorem C5_base_zero_values {Self} (self : Self) (name : string)
    (di : int64) (dd : double) (ds : string_view) (v : int) :
  GetInt (RockflowContext_base Self) self name di = 0%Z
  /\ GetDouble (RockflowContext_base Self) self name dd = 0.0%float
  /\ GetString (RockflowContext_base Self) self name ds = EmptyString
  /\ GetIntList (RockflowContext_base Self) self name = []
  /\ GetDoubleList (RockflowContext_base Self) self name = []
  /\ GetStringList (RockflowContext_base Self) self name = []
  /\ SetInt (RockflowContext_base Self) self name v = 0%Z.
Proof. repeat split. Qed.

(** ** C6 *)

(** C6: [GetInt] and [GetIntList] carry [int64_t], but [SetInt] takes its
    value as a 32-bit [int], so the valid [int64_t] value [2^32] reaches it
    as 0. *)
Theorem C6_SetInt_value_is_int32 :
  option_map sig_params (lookup_method "GetInt") = Some [CStdString; CInt64]
  /\ option_map sig_ret (lookup_method "GetInt") = Some CInt64
  /\ option_map sig_ret (lookup_method "GetIntList") = Some (CFTList CInt64)
  /\ option_map sig_params (lookup_method "SetInt") = Some [CStdString; CInt]
  /\ int_bits CInt = Some 32%nat
  /\ to_int (2 ^ 32)%Z = 0%Z.
Proof. vm_compute. repeat split. Qed.

(** ** C7 *)

(** C7: the inherited list getters return an empty list, of length 0, for
    every name; they always return a list. *)
Theorem C7_base_lists_empty {Self} (self : Self) (name : string) :
  length (GetIntList (RockflowContext_base Self) self name) = 0%nat
  /\ length (GetDoubleList (RockflowContext_base Self) self name) = 0%nat
  /\ length (GetStringList (RockflowContext_base Self) self name) = 0%nat
  /\ call_builtin (RockflowContext_base Self) self
       "rockflow_context" "get_int_list" [VContext; VBytes name] = Some (VIntList [])
  /\ call_builtin (RockflowContext_base Self) self
       "rockflow_context" "get_double_list" [VContext; VBytes name] = Some (VFloatList [])
  /\ call_builtin (RockflowContext_base Self) self
       "rockflow_context" "get_string_list" [VContext; VBytes name] = Some (VBytesList []).
Proof. repeat split. Qed.

(** ** C8 *)

(** C8: every entry declares as many inputs as it adds arguments. *)
Theorem C8_num_inputs_eq_arguments :
  Forall (fun e => op_num_inputs e = Z.of_nat (length (op_arguments e)))
    rockflow_registry.
Proof. repeat constructor. Qed.

(** ** C9 *)

(** C9: the first argument of every entry is [self] of type
    [RockflowContext]. *)
Theorem C9_first_argument_self :
  Forall (fun e => exists rest, op_arguments e
            = {| arg_name := "self"; arg_type_key := "RockflowContext";
                 arg_description := "" |} :: rest)
    rockflow_registry.
Proof. repeat constructor; eexists; reflexivity. Qed.

(** ** C10 *)

(** C10: with the inherited bodies, a call returns the object unchanged and
    a result fixed by the operation alone, whatever the object and the
    arguments; a sequence of calls returns the object unchanged and the
    results call by call, so no call affects another. *)
Theorem C10_base_calls_frame {Self} (self : Self) (cs : list Call) (c : Call) :
  invoke (RockflowContext_base Self) self c = (base_result (call_op c), self)
  /\ run (RockflowContext_base Self) self cs
     = (map (fun c0 => base_result (call_op c0)) cs, self).
Proof.
  split; [destruct c; reflexivity |].
  induction cs as [| c0 cs IH]; [reflexivity |].
  cbn [run]. rewrite invoke_base, IH. reflexivity.
Qed.

(** * Further properties of the registry and the interface *)

(** The registry keys are pairwise distinct, and looking an entry up by its
    own key finds that entry. *)
Theorem registry_keys_unique_lookup :
  NoDup (map entry_key rockflow_registry)
  /\ Forall (fun e => find_entry (op_prefix e) (op_name e) = Some e) rockflow_registry.
Proof.
  split.
  - vm_compute.
    repeat constructor; cbn; intuition discriminate.
  - repeat constructor.
Qed.

(** Every entry lives under the [rockflow_context] prefix and is named by
    the snake-case form of the method it binds. *)
Theorem registry_names_follow_methods :
  Forall (fun e => op_prefix e = "rockflow_context"
                   /\ op_name e = snake_case (op_method e)) rockflow_registry.
Proof. repeat constructor. Qed.

(** Every declared argument type is one of the four runtime type keys, and
    within each entry the argument names are distinct. *)
Theorem registry_argument_types_and_names :
  Forall (fun e => Forall (fun a => In (arg_type_key a) runtime_type_keys) (op_arguments e)
                   /\ NoDup (map arg_name (op_arguments e))) rockflow_registry.
Proof.
  unfold rockflow_registry.
  repeat apply Forall_cons; try apply Forall_nil; split; vm_compute.
  all: try solve_nodup.
  all: repeat apply Forall_cons; try apply Forall_nil; solve_in.
Qed.

(** In every entry bound to a method of [RockflowContext], the second
    argument is the attribute name [attr_name : bytes], and where a third
    argument [default_value] follows, its type is the type the bound method
    returns. *)
Theorem registry_attr_name_and_default_type :
  Forall (fun e =>
    match lookup_method (op_method e) with
    | None => True
    | Some m =>
        match op_arguments e with
        | _ :: a :: rest =>
            arg_name a = "attr_name" /\ arg_type_key a = "bytes"
            /\ match rest with
               | [d] => arg_name d = "default_value"
                        /\ Some (arg_type_key d) = type_key_of (sig_ret m)
               | _ => rest = []
               end
        | _ => False
        end
    end) rockflow_registry.
Proof.
  unfold rockflow_registry.
  repeat apply Forall_cons; try apply Forall_nil; vm_compute; repeat split.
Qed.

(** An [int64_t] argument already in the 32-bit range reaches [SetInt]
    unchanged. *)
Theorem to_int_small (z : int64) (Hlo : -2^31 <= z) (Hhi : z < 2^31) : to_int z = z.
Proof.
  unfold to_int, wrap_signed. cbn zeta.
  destruct (Z.leb_spec (2 ^ (32 - 1)) (z mod 2 ^ 32)) as [H | H].
  - destruct (Z.neg_nonneg_cases z) as [Hn | Hn].
    + rewrite <- (Z.mod_unique z (2^32) (-1) (z + 2^32)) in * by lia. lia.
    + rewrite Z.mod_small in * by lia. lia.
  - destruct (Z.neg_nonneg_cases z) as [Hn | Hn].
    + rewrite <- (Z.mod_unique z (2^32) (-1) (z + 2^32)) in * by lia. lia.
    + rewrite Z.mod_small by lia. reflexivity.
Qed.

Lemma to_int_small_witness : (-2^31 <= -5 /\ -5 < 2^31) /\ to_int (-5) = -5.
Proof.
  split; [lia |].
  apply (to_int_small (-5)); lia.
Defined.

(** The value [SetInt] receives is congruent to the [int64_t] argument
    modulo 2^32: the conversion keeps the low 32 bits. *)
Theorem to_int_low_bits (z : int64) : to_int z mod 2^32 = z mod 2^32.
Proof.
  unfold to_int, wrap_signed. cbn zeta.
  destruct (2 ^ (32 - 1) <=? z mod 2 ^ 32).
  - replace (z mod 2 ^ 32 - 2 ^ 32) with (z mod 2 ^ 32 + (-1) * 2 ^ 32) by ring.
    rewrite Z.mod_add by lia. apply Z.mod_mod. lia.
  - apply Z.mod_mod. lia.
Qed.
